(** * The Dagster registration module of the Airbnb dbt project

    Shallow embedding of
    [dbt_airbnb_dagster_pipeline/definitions.py]: the module builds, at
    import time, the single object

      defs = Definitions(
          assets=[dbtlearn_dbt_assets, dbtlearn_partitioned_dbt_assets],
          schedules=schedules,
          resources={"dbt": DbtCliResource(project_dir=os.fspath(dbt_project_dir))},
      )

    Python calls are modelled as functions into an exception monad and
    the keyword dictionary as a [gmap] keyed by strings.  *)

From stdpp Require Import base option strings list gmap fin_maps.

(** ** Exceptions and results of Python calls *)

Module Py.

Inductive exn : Type :=
| TypeError
| NamingCollision (name : string)
| ConfigurationError (path : string).

Inductive result (A : Type) : Type :=
| Return (a : A)
| Raise (e : exn).

Arguments Return {A} a.
Arguments Raise {A} e.

Definition bind {A B : Type} (r : result A) (k : A -> result B) : result B :=
  match r with
  | Return a => k a
  | Raise e => Raise e
  end.

Definition fails {A : Type} (r : result A) : Prop :=
  exists e, r = Raise e.

End Py.

#[global] Instance result_ret : MRet Py.result := @Py.Return.
#[global] Instance result_bind : MBind Py.result :=
  fun A B k r => Py.bind r k.

(** ** [os.fspath] *)

Module os.

(** The values [os.fspath] may be handed: a [str], an object with an
    [__fspath__] method (a [pathlib.Path], which answers the string it
    holds), or a value that is no path at all.  Byte-string paths, which
    the function also lets through, are left out: the project directory
    of the resource is text. *)
Inductive PathArg : Type :=
| Str (s : string)
| PurePath (s : string)
| NotPathLike.

(** A [str] comes back unchanged, a path object answers its string
    form, any other value raises [TypeError]. *)
Definition fspath (p : PathArg) : Py.result string :=
  match p with
  | Str s => Py.Return s
  | PurePath s => Py.Return s
  | NotPathLike => Py.Raise Py.TypeError
  end.

Definition string_form (p : PathArg) : option string :=
  match p with
  | Str s | PurePath s => Some s
  | NotPathLike => None
  end.

End os.

(** ** The framework objects the module wires together *)

Module dagster.

(** Modelled from the spec: the asset definition of the data model, an
    opaque handle to a named transformation unit; a partitioned one is
    tagged with its partitioning dimension.  The class lives in the
    orchestration framework. *)
Record AssetsDefinition : Type := {
  asset_name : string;
  partitions_def : option string
}.

(** Modelled from the spec: a schedule, an opaque cron-like trigger
    rule bound to zero or more assets. *)
Record ScheduleDefinition : Type := {
  cron_schedule : string;
  targets : list string
}.

(** Modelled from the spec: the registration object of the framework,
    which aggregates the three collections (assets, schedules, resources
    by name) into one snapshot.  [R] is the type of resource objects. *)
Record Definitions (R : Type) : Type := {
  assets : list AssetsDefinition;
  schedules : list ScheduleDefinition;
  resources : gmap string R
}.

Arguments assets {R} _.
Arguments schedules {R} _.
Arguments resources {R} _.

(** The first name of the sequence that occurs again further on. *)
Fixpoint find_collision (names : list string) : option string :=
  match names with
  | [] => None
  | n :: rest =>
      if decide (n ∈ rest) then Some n else find_collision rest
  end.

(** Modelled from the spec: the call [Definitions(assets=...,
    schedules=..., resources=...)] of the framework, whose body is not
    part of this module.  It fails with a naming-collision error if two
    asset definitions share a name, and otherwise aggregates the three
    collections into one registration object. *)
Definition Definitions_call {R : Type}
    (assets : list AssetsDefinition)
    (schedules : list ScheduleDefinition)
    (resources : gmap string R) : Py.result (Definitions R) :=
  match find_collision (asset_name <$> assets) with
  | Some n => Py.Raise (Py.NamingCollision n)
  | None =>
      Py.Return {| assets := assets;
                   schedules := schedules;
                   resources := resources |}
  end.

Definition asset_names {R : Type} (d : Definitions R) : list string :=
  asset_name <$> assets d.

Definition resource_keys {R : Type} (d : Definitions R) : gset string :=
  dom (resources d).

(** What two registration objects are compared by: asset names,
    schedules and resource keys. *)
Definition logical_content {R : Type} (d : Definitions R)
    : list string * list ScheduleDefinition * gset string :=
  (asset_names d, schedules d, resource_keys d).

End dagster.

(** ** A CLI resource as the data model describes it *)

Module dagster_dbt.

(** Modelled from the spec: the CLI resource configuration of the data
    model, a value object holding a single required field, the path of
    the transformation project root.  The class itself belongs to the
    dbt integration library; this instance serves as the concrete
    resource constructor in the examples below. *)
Record DbtCliResource : Type := {
  project_dir : string
}.

Definition DbtCliResource_call (project_dir : string)
    : Py.result DbtCliResource :=
  Py.Return {| project_dir := project_dir |}.

End dagster_dbt.

(** ** The module itself *)

(** The names the module imports from its sibling modules [assets],
    [constants] and [schedules]. *)
Record Imports : Type := {
  dbtlearn_dbt_assets : dagster.AssetsDefinition;
  dbtlearn_partitioned_dbt_assets : dagster.AssetsDefinition;
  schedules : list dagster.ScheduleDefinition;
  dbt_project_dir : os.PathArg
}.

Section definitions_py.

(** The constructor of the CLI resource is the integration library's:
    it receives the project directory as a string and either answers a
    resource object or raises. *)
Context {R : Type}.
Variable DbtCliResource : string -> Py.result R.

(** The right-hand side of the assignment: the arguments are evaluated
    in the order they are written (the asset list, the schedules, then
    the resource dictionary with the coerced path) before the call. *)
Definition defs (env : Imports) : Py.result (dagster.Definitions R) :=
  let assets := [dbtlearn_dbt_assets env; dbtlearn_partitioned_dbt_assets env] in
  let schedules := schedules env in
  project_dir ← os.fspath (dbt_project_dir env);
  dbt ← DbtCliResource project_dir;
  dagster.Definitions_call assets schedules (<["dbt" := dbt]> ∅).

End definitions_py.

(** ** The scenario of the specification, as concrete imports *)

Definition asset_A : dagster.AssetsDefinition :=
  {| dagster.asset_name := "A"; dagster.partitions_def := None |}.

Definition asset_B : dagster.AssetsDefinition :=
  {| dagster.asset_name := "B"; dagster.partitions_def := Some "daily" |}.

Definition schedule_S1 : dagster.ScheduleDefinition :=
  {| dagster.cron_schedule := "0 0 * * *"; dagster.targets := ["A"; "B"] |}.

Definition scenario_env : Imports :=
  {| dbtlearn_dbt_assets := asset_A;
     dbtlearn_partitioned_dbt_assets := asset_B;
     schedules := [schedule_S1];
     dbt_project_dir := os.PurePath "/proj" |}.

(** The same imports with a project directory given relative to the
    working directory, which nothing guarantees to exist. *)
Definition relative_env : Imports :=
  {| dbtlearn_dbt_assets := asset_A;
     dbtlearn_partitioned_dbt_assets := asset_B;
     schedules := [];
     dbt_project_dir := os.Str "../dbtlearn/./missing" |}.

(** Two asset definitions that carry the same name. *)
Definition asset_A_daily : dagster.AssetsDefinition :=
  {| dagster.asset_name := "A"; dagster.partitions_def := Some "daily" |}.

Definition colliding_env : Imports :=
  {| dbtlearn_dbt_assets := asset_A;
     dbtlearn_partitioned_dbt_assets := asset_A_daily;
     schedules := [schedule_S1];
     dbt_project_dir := os.PurePath "/proj" |}.

(** The registration objects the two sets of imports lead to. *)
Definition scenario_defs : dagster.Definitions dagster_dbt.DbtCliResource :=
  {| dagster.assets := [asset_A; asset_B];
     dagster.schedules := [schedule_S1];
     dagster.resources := {["dbt" := {| dagster_dbt.project_dir := "/proj" |}]} |}.

Definition relative_defs : dagster.Definitions dagster_dbt.DbtCliResource :=
  {| dagster.assets := [asset_A; asset_B];
     dagster.schedules := [];
     dagster.resources :=
       {["dbt" := {| dagster_dbt.project_dir := "../dbtlearn/./missing" |}]} |}.

(** * Properties *)

(** ** The collision check *)

Lemma find_collision_None (names : list string) :
  dagster.find_collision names = None <-> NoDup names.
Proof.
  induction names as [|n rest IH]; simpl.
  - split; [intros _; constructor | done].
  - case_decide as Hin.
    + split; [done |]. intros Hnd. apply NoDup_cons in Hnd as [Hn _]. done.
    + rewrite IH, NoDup_cons. tauto.
Qed.

Lemma find_collision_Some (names : list string) (n : string) :
  dagster.find_collision names = Some n ->
  exists i j, i < j /\ names !! i = Some n /\ names !! j = Some n.
Proof.
  induction names as [|m rest IH]; simpl; [done |].
  case_decide as Hin.
  - intros [= ->]. apply list_elem_of_lookup in Hin as [j Hj].
    exists 0, (S j). split; [lia |]. done.
  - intros Hc. destruct (IH Hc) as (i & j & Hij & Hi & Hj).
    exists (S i), (S j). split; [lia |]. done.
Qed.

Lemma shared_name_not_NoDup (l : list dagster.AssetsDefinition)
    (i j : nat) (a b : dagster.AssetsDefinition) :
  i <> j -> l !! i = Some a -> l !! j = Some b ->
  dagster.asset_name a = dagster.asset_name b ->
  ~ NoDup (dagster.asset_name <$> l).
Proof.
  intros Hij Hi Hj Hab Hnd. apply Hij.
  eapply NoDup_lookup; [exact Hnd | |].
  - rewrite list_lookup_fmap, Hi. reflexivity.
  - rewrite list_lookup_fmap, Hj. simpl. by rewrite Hab.
Qed.

Lemma Definitions_call_NoDup {R : Type} (assets : list dagster.AssetsDefinition)
    (scheds : list dagster.ScheduleDefinition) (res : gmap string R) :
  NoDup (dagster.asset_name <$> assets) ->
  dagster.Definitions_call assets scheds res =
    Py.Return {| dagster.assets := assets;
                 dagster.schedules := scheds;
                 dagster.resources := res |}.
Proof.
  intros Hnd. unfold dagster.Definitions_call.
  apply find_collision_None in Hnd. by rewrite Hnd.
Qed.

Lemma Definitions_call_collision {R : Type} (assets : list dagster.AssetsDefinition)
    (scheds : list dagster.ScheduleDefinition) (res : gmap string R) :
  ~ NoDup (dagster.asset_name <$> assets) ->
  exists n, dagster.Definitions_call assets scheds res =
              Py.Raise (Py.NamingCollision n)
            /\ exists i j, i < j
                 /\ (dagster.asset_name <$> assets) !! i = Some n
                 /\ (dagster.asset_name <$> assets) !! j = Some n.
Proof.
  intros Hnd. unfold dagster.Definitions_call.
  destruct (dagster.find_collision (dagster.asset_name <$> assets)) as [n|] eqn:Hc.
  - exists n. split; [done |]. by apply find_collision_Some.
  - apply find_collision_None in Hc. done.
Qed.

Lemma Definitions_call_Return {R : Type} (assets : list dagster.AssetsDefinition)
    (scheds : list dagster.ScheduleDefinition) (res : gmap string R)
    (d : dagster.Definitions R) :
  dagster.Definitions_call assets scheds res = Py.Return d ->
  NoDup (dagster.asset_name <$> assets)
  /\ d = {| dagster.assets := assets;
            dagster.schedules := scheds;
            dagster.resources := res |}.
Proof.
  unfold dagster.Definitions_call.
  destruct (dagster.find_collision _) eqn:Hc; [done |].
  intros [= <-]. split; [by apply find_collision_None | done].
Qed.

Lemma fspath_string_form (p : os.PathArg) (s : string) :
  os.fspath p = Py.Return s <-> os.string_form p = Some s.
Proof. destruct p; simpl; split; congruence. Qed.

Lemma pair_NoDup (x y : string) : x <> y <-> NoDup [x; y].
Proof.
  rewrite !NoDup_cons, list_elem_of_singleton.
  split; [intros H; repeat split; [done | apply not_elem_of_nil | constructor] | tauto].
Qed.

Section definitions_py_facts.

Context {R : Type}.
Variable DbtCliResource : string -> Py.result R.

(** The value of the right-hand side once the path has been coerced
    and the resource built. *)
Lemma defs_resource_built (env : Imports) (s : string) (dbt : R) :
  os.string_form (dbt_project_dir env) = Some s ->
  DbtCliResource s = Py.Return dbt ->
  defs DbtCliResource env =
    dagster.Definitions_call
      [dbtlearn_dbt_assets env; dbtlearn_partitioned_dbt_assets env]
      (schedules env) {["dbt" := dbt]}.
Proof.
  intros Hs Hr. apply fspath_string_form in Hs.
  unfold defs. rewrite Hs. simpl. rewrite Hr. simpl.
  by rewrite insert_empty.
Qed.

Lemma defs_Return_eq (env : Imports) (s : string) (dbt : R) :
  os.string_form (dbt_project_dir env) = Some s ->
  DbtCliResource s = Py.Return dbt ->
  dagster.asset_name (dbtlearn_dbt_assets env) <>
    dagster.asset_name (dbtlearn_partitioned_dbt_assets env) ->
  defs DbtCliResource env =
    Py.Return
      {| dagster.assets :=
           [dbtlearn_dbt_assets env; dbtlearn_partitioned_dbt_assets env];
         dagster.schedules := schedules env;
         dagster.resources := {["dbt" := dbt]} |}.
Proof.
  intros Hs Hr Hne. rewrite (defs_resource_built env s dbt Hs Hr).
  apply Definitions_call_NoDup. simpl. by apply pair_NoDup.
Qed.

(** Conversely, a returned registration object tells how every
    argument was evaluated. *)
Lemma defs_Return_inv (env : Imports) (d : dagster.Definitions R) :
  defs DbtCliResource env = Py.Return d ->
  exists s dbt,
    os.string_form (dbt_project_dir env) = Some s
    /\ DbtCliResource s = Py.Return dbt
    /\ dagster.asset_name (dbtlearn_dbt_assets env) <>
         dagster.asset_name (dbtlearn_partitioned_dbt_assets env)
    /\ d = {| dagster.assets :=
                [dbtlearn_dbt_assets env; dbtlearn_partitioned_dbt_assets env];
              dagster.schedules := schedules env;
              dagster.resources := {["dbt" := dbt]} |}.
Proof.
  unfold defs.
  destruct (os.fspath (dbt_project_dir env)) as [s|] eqn:Hs; simpl; [|done].
  destruct (DbtCliResource s) as [dbt|] eqn:Hr; simpl; [|done].
  intros Hd. apply Definitions_call_Return in Hd as [Hnd ->].
  exists s, dbt. rewrite insert_empty.
  split; [by apply fspath_string_form |].
  split; [done |]. split; [by apply pair_NoDup | done].
Qed.

Lemma defs_same_names_fails (env : Imports) :
  dagster.asset_name (dbtlearn_dbt_assets env) =
    dagster.asset_name (dbtlearn_partitioned_dbt_assets env) ->
  Py.fails (defs DbtCliResource env).
Proof.
  intros Heq. destruct (defs DbtCliResource env) as [d|e] eqn:Hd.
  - apply defs_Return_inv in Hd as (s & dbt & _ & _ & Hne & _). done.
  - by exists e.
Qed.

(** The resource constructor is called while the arguments of
    [Definitions] are evaluated: whatever it raises on the coerced path
    is what the assembly raises, and the assembly cannot succeed
    unless it answered a resource. *)
Lemma defs_constructor_raises (env : Imports) (s : string) (e : Py.exn) :
  os.string_form (dbt_project_dir env) = Some s ->
  DbtCliResource s = Py.Raise e ->
  defs DbtCliResource env = Py.Raise e.
Proof.
  intros Hs Hr. apply fspath_string_form in Hs.
  unfold defs. rewrite Hs. simpl. by rewrite Hr.
Qed.

Lemma defs_not_path_like (env : Imports) :
  os.string_form (dbt_project_dir env) = None ->
  defs DbtCliResource env = Py.Raise Py.TypeError.
Proof.
  intros Hs. unfold defs.
  destruct (dbt_project_dir env); simpl in *; done.
Qed.

(** *** What the registration object holds *)

(** C1: for the module's concrete inputs, an unpartitioned asset set
    [A], a partitioned asset set [B] with another name, the schedule
    set [S1] and the resource built for the project path, the
    registration object holds exactly the assets [A] and [B], exactly
    the schedule [S1] and exactly the resource key "dbt". *)
Theorem defs_scenario_exact_contents
    (A B : dagster.AssetsDefinition) (S1 : dagster.ScheduleDefinition)
    (path : string) (dbt : R) :
  dagster.asset_name A <> dagster.asset_name B ->
  DbtCliResource path = Py.Return dbt ->
  exists d,
    defs DbtCliResource
      {| dbtlearn_dbt_assets := A;
         dbtlearn_partitioned_dbt_assets := B;
         schedules := [S1];
         dbt_project_dir := os.PurePath path |} = Py.Return d
    /\ dagster.assets d = [A; B]
    /\ dagster.schedules d = [S1]
    /\ dagster.resource_keys d = {["dbt"]}.
Proof.
  intros Hne Hr. eexists. split.
  - by apply (defs_Return_eq _ path dbt).
  - simpl. split; [done |]. split; [done |].
    unfold dagster.resource_keys. simpl. apply dom_singleton_L.
Qed.

(** C6: the module hands the assembler one asset sequence that mixes
    an unpartitioned and a partitioned asset definition, a schedule
    sequence, and a resource mapping whose only key is "dbt", bound to
    the CLI resource; one registration object comes out of it. *)
Theorem defs_accepts_mixed_assets (env : Imports) (dim s : string) (dbt : R) :
  dagster.partitions_def (dbtlearn_dbt_assets env) = None ->
  dagster.partitions_def (dbtlearn_partitioned_dbt_assets env) = Some dim ->
  dagster.asset_name (dbtlearn_dbt_assets env) <>
    dagster.asset_name (dbtlearn_partitioned_dbt_assets env) ->
  os.string_form (dbt_project_dir env) = Some s ->
  DbtCliResource s = Py.Return dbt ->
  exists d,
    (forall d', defs DbtCliResource env = Py.Return d' <-> d' = d)
    /\ (exists a b, a ∈ dagster.assets d /\ b ∈ dagster.assets d
          /\ dagster.partitions_def a = None
          /\ dagster.partitions_def b = Some dim)
    /\ dagster.schedules d = schedules env
    /\ dagster.resources d !! "dbt" = Some dbt
    /\ (forall k, k <> "dbt" -> dagster.resources d !! k = None)
    /\ size (dagster.resources d) = 1.
Proof.
  intros HA HB Hne Hs Hr.
  pose proof (defs_Return_eq env s dbt Hs Hr Hne) as Hd.
  eexists. split; [|split; [|split; [|split; [|split]]]].
  - intros d'. rewrite Hd. split; [by intros [= <-] | by intros ->].
  - exists (dbtlearn_dbt_assets env), (dbtlearn_partitioned_dbt_assets env).
    simpl. repeat split; [set_solver | set_solver | done | done].
  - done.
  - simpl. apply lookup_singleton_eq.
  - intros k Hk. simpl. by apply lookup_singleton_ne.
  - simpl. apply map_size_singleton.
Qed.

(** C7: an empty schedule list is a valid input; the assembly succeeds
    and the registration object has no schedule. *)
Theorem defs_empty_schedules (env : Imports) (s : string) (dbt : R) :
  schedules env = [] ->
  dagster.asset_name (dbtlearn_dbt_assets env) <>
    dagster.asset_name (dbtlearn_partitioned_dbt_assets env) ->
  os.string_form (dbt_project_dir env) = Some s ->
  DbtCliResource s = Py.Return dbt ->
  exists d,
    defs DbtCliResource env = Py.Return d
    /\ dagster.schedules d = []
    /\ length (dagster.schedules d) = 0.
Proof.
  intros Hsch Hne Hs Hr. eexists. split.
  - by apply (defs_Return_eq env s dbt).
  - simpl. by rewrite Hsch.
Qed.

(** *** Success, cardinality and collisions *)

(** C2: for every non-empty asset collection whose names are pairwise
    distinct and every resource mapping, the assembly succeeds and the
    registration object holds the input assets, as many as were given;
    for the module's own two-element list this is the value of [defs]
    once the resource is built. *)
Theorem Definitions_call_keeps_cardinality
    (assets : list dagster.AssetsDefinition)
    (scheds : list dagster.ScheduleDefinition) (res : gmap string R) :
  assets <> [] ->
  NoDup (dagster.asset_name <$> assets) ->
  (exists d,
     dagster.Definitions_call assets scheds res = Py.Return d
     /\ length (dagster.assets d) = length assets
     /\ dagster.assets d = assets
     /\ dagster.resources d = res)
  /\ (forall env s dbt,
        [dbtlearn_dbt_assets env; dbtlearn_partitioned_dbt_assets env] = assets ->
        os.string_form (dbt_project_dir env) = Some s ->
        DbtCliResource s = Py.Return dbt ->
        exists d,
          defs DbtCliResource env = Py.Return d
          /\ length (dagster.assets d) = length assets).
Proof.
  intros _ Hnd. split.
  - eexists. split; [by apply Definitions_call_NoDup | done].
  - intros env s dbt <- Hs Hr. eexists. split.
    + rewrite (defs_resource_built env s dbt Hs Hr).
      by apply Definitions_call_NoDup.
    + done.
Qed.

(** C3: whenever two asset definitions at different positions of the
    input sequence carry the same name, the assembly fails with a
    naming-collision error on a name that occurs twice; [defs] then
    never returns a registration object, and raises that error as soon
    as its resource argument has been built. *)
Theorem Definitions_call_name_collision
    (assets : list dagster.AssetsDefinition)
    (scheds : list dagster.ScheduleDefinition) (res : gmap string R)
    (i j : nat) (a b : dagster.AssetsDefinition) :
  i <> j ->
  assets !! i = Some a ->
  assets !! j = Some b ->
  dagster.asset_name a = dagster.asset_name b ->
  (exists n,
     dagster.Definitions_call assets scheds res =
       Py.Raise (Py.NamingCollision n)
     /\ exists k l, k < l
          /\ (dagster.asset_name <$> assets) !! k = Some n
          /\ (dagster.asset_name <$> assets) !! l = Some n)
  /\ (forall env,
        [dbtlearn_dbt_assets env; dbtlearn_partitioned_dbt_assets env] = assets ->
        Py.fails (defs DbtCliResource env)
        /\ forall s dbt,
             os.string_form (dbt_project_dir env) = Some s ->
             DbtCliResource s = Py.Return dbt ->
             exists n, defs DbtCliResource env =
                         Py.Raise (Py.NamingCollision n)).
Proof.
  intros Hij Hi Hj Hab.
  pose proof (shared_name_not_NoDup assets i j a b Hij Hi Hj Hab) as Hnd.
  split; [by apply Definitions_call_collision |].
  intros env <-. split.
  - apply defs_same_names_fails.
    destruct (decide (dagster.asset_name (dbtlearn_dbt_assets env) =
                      dagster.asset_name (dbtlearn_partitioned_dbt_assets env)))
      as [Heq|Hne]; [done |].
    exfalso. apply Hnd. simpl. by apply pair_NoDup.
  - intros s dbt Hs Hr. rewrite (defs_resource_built env s dbt Hs Hr).
    destruct (Definitions_call_collision _ (schedules env)
                ({["dbt" := dbt]} : gmap string R) Hnd) as (n & Hn & _).
    by exists n.
Qed.

End definitions_py_facts.

(** *** The project directory and repeated assembly *)

(** C10: the project-root path reaches the CLI resource through
    [os.fspath] alone.  For a path whose string form is [s], the outcome
    of the assignment is the outcome of handing [s] itself to the
    resource constructor and then making the call, whatever the
    constructor does with it; the module depends on the path only
    through [os.fspath]; and a constructor that answers the string it was
    handed shows that string, unchanged, under "dbt".  Nothing in this
    layer resolves, normalises or tests the path, so no path is refused
    here. *)
Theorem project_dir_only_coerced {R : Type}
    (DbtCliResource : string -> Py.result R) (env : Imports) (s : string) :
  os.string_form (dbt_project_dir env) = Some s ->
  defs DbtCliResource env =
    (dbt ← DbtCliResource s;
     dagster.Definitions_call
       [dbtlearn_dbt_assets env; dbtlearn_partitioned_dbt_assets env]
       (schedules env) {["dbt" := dbt]})
  /\ (forall env',
        dbtlearn_dbt_assets env' = dbtlearn_dbt_assets env ->
        dbtlearn_partitioned_dbt_assets env' =
          dbtlearn_partitioned_dbt_assets env ->
        schedules env' = schedules env ->
        os.fspath (dbt_project_dir env') = Py.Return s ->
        defs DbtCliResource env' = defs DbtCliResource env)
  /\ (dagster.asset_name (dbtlearn_dbt_assets env) <>
        dagster.asset_name (dbtlearn_partitioned_dbt_assets env) ->
      defs (fun project_dir : string => Py.Return project_dir) env =
        Py.Return
          {| dagster.assets :=
               [dbtlearn_dbt_assets env; dbtlearn_partitioned_dbt_assets env];
             dagster.schedules := schedules env;
             dagster.resources := {["dbt" := s]} |}).
Proof.
  intros Hs. pose proof Hs as Hf. apply fspath_string_form in Hf.
  split; [|split].
  - unfold defs. rewrite Hf. simpl.
    destruct (DbtCliResource s) as [dbt|e]; simpl; [|done].
    by rewrite insert_empty.
  - intros env' HA HB HS Hf'. unfold defs.
    by rewrite Hf, Hf', HA, HB, HS.
  - intros Hne. by apply (defs_Return_eq _ env s s).
Qed.

(** C4: assembling twice from identical inputs gives two registration
    objects with the same asset names, the same schedules and the same
    resource keys, even when the resource constructor answers a
    different resource object at each assembly. *)
Theorem defs_deterministic {R1 R2 : Type}
    (DbtCliResource1 : string -> Py.result R1)
    (DbtCliResource2 : string -> Py.result R2)
    (env : Imports)
    (d1 : dagster.Definitions R1) (d2 : dagster.Definitions R2) :
  defs DbtCliResource1 env = Py.Return d1 ->
  defs DbtCliResource2 env = Py.Return d2 ->
  dagster.asset_names d1 = dagster.asset_names d2
  /\ dagster.schedules d1 = dagster.schedules d2
  /\ dagster.resource_keys d1 = dagster.resource_keys d2
  /\ dagster.logical_content d1 = dagster.logical_content d2.
Proof.
  intros H1 H2.
  destruct (defs_Return_inv _ env d1 H1) as (s1 & dbt1 & _ & _ & _ & ->).
  destruct (defs_Return_inv _ env d2 H2) as (s2 & dbt2 & _ & _ & _ & ->).
  unfold dagster.logical_content, dagster.asset_names, dagster.resource_keys.
  simpl. rewrite !dom_singleton_L. done.
Qed.

(** ** The scenario, run *)

Example scenario_defs_value :
  defs dagster_dbt.DbtCliResource_call scenario_env = Py.Return scenario_defs.
Proof. reflexivity. Qed.

Example relative_defs_value :
  defs dagster_dbt.DbtCliResource_call relative_env = Py.Return relative_defs.
Proof. reflexivity. Qed.

Example colliding_defs_value :
  defs dagster_dbt.DbtCliResource_call colliding_env =
    Py.Raise (Py.NamingCollision "A").
Proof. reflexivity. Qed.

Example not_path_like_value :
  defs dagster_dbt.DbtCliResource_call
    {| dbtlearn_dbt_assets := asset_A;
       dbtlearn_partitioned_dbt_assets := asset_B;
       schedules := [];
       dbt_project_dir := os.NotPathLike |} = Py.Raise Py.TypeError.
Proof. reflexivity. Qed.

Lemma defs_scenario_exact_contents_witness :
  exists d,
    defs dagster_dbt.DbtCliResource_call scenario_env = Py.Return d
    /\ dagster.assets d = [asset_A; asset_B]
    /\ dagster.schedules d = [schedule_S1]
    /\ dagster.resource_keys d = {["dbt"]}.
Proof.
  apply (defs_scenario_exact_contents dagster_dbt.DbtCliResource_call
           asset_A asset_B schedule_S1 "/proj"
           {| dagster_dbt.project_dir := "/proj" |}).
  - simpl. discriminate.
  - reflexivity.
Defined.

Lemma defs_accepts_mixed_assets_witness :
  exists d,
    (forall d', defs dagster_dbt.DbtCliResource_call scenario_env = Py.Return d'
                <-> d' = d)
    /\ (exists a b, a ∈ dagster.assets d /\ b ∈ dagster.assets d
          /\ dagster.partitions_def a = None
          /\ dagster.partitions_def b = Some "daily")
    /\ dagster.schedules d = [schedule_S1]
    /\ dagster.resources d !! "dbt" = Some {| dagster_dbt.project_dir := "/proj" |}
    /\ (forall k, k <> "dbt" -> dagster.resources d !! k = None)
    /\ size (dagster.resources d) = 1.
Proof.
  apply (defs_accepts_mixed_assets dagster_dbt.DbtCliResource_call
           scenario_env "daily" "/proj").
  - reflexivity.
  - reflexivity.
  - simpl. discriminate.
  - reflexivity.
  - reflexivity.
Defined.

Lemma defs_empty_schedules_witness :
  exists d,
    defs dagster_dbt.DbtCliResource_call relative_env = Py.Return d
    /\ dagster.schedules d = []
    /\ length (dagster.schedules d) = 0.
Proof.
  apply (defs_empty_schedules dagster_dbt.DbtCliResource_call relative_env
           "../dbtlearn/./missing"
           {| dagster_dbt.project_dir := "../dbtlearn/./missing" |}).
  - reflexivity.
  - simpl. discriminate.
  - reflexivity.
  - reflexivity.
Defined.

Lemma project_dir_only_coerced_witness :
  defs dagster_dbt.DbtCliResource_call relative_env =
    (dbt ← dagster_dbt.DbtCliResource_call "../dbtlearn/./missing";
     dagster.Definitions_call [asset_A; asset_B] [] {["dbt" := dbt]})
  /\ (forall env',
        dbtlearn_dbt_assets env' = asset_A ->
        dbtlearn_partitioned_dbt_assets env' = asset_B ->
        schedules env' = [] ->
        os.fspath (dbt_project_dir env') = Py.Return "../dbtlearn/./missing" ->
        defs dagster_dbt.DbtCliResource_call env' =
          defs dagster_dbt.DbtCliResource_call relative_env)
  /\ (dagster.asset_name asset_A <> dagster.asset_name asset_B ->
      defs (fun project_dir : string => Py.Return project_dir) relative_env =
        Py.Return
          {| dagster.assets := [asset_A; asset_B];
             dagster.schedules := [];
             dagster.resources := {["dbt" := "../dbtlearn/./missing"]} |}).
Proof.
  apply (project_dir_only_coerced dagster_dbt.DbtCliResource_call
           relative_env "../dbtlearn/./missing").
  reflexivity.
Defined.

Lemma defs_deterministic_witness :
  let d2 : dagster.Definitions nat :=
    {| dagster.assets := [asset_A; asset_B];
       dagster.schedules := [schedule_S1];
       dagster.resources := {["dbt" := 5]} |} in
  dagster.asset_names scenario_defs = dagster.asset_names d2
  /\ dagster.schedules scenario_defs = dagster.schedules d2
  /\ dagster.resource_keys scenario_defs = dagster.resource_keys d2
  /\ dagster.logical_content scenario_defs = dagster.logical_content d2.
Proof.
  intros d2.
  apply (defs_deterministic dagster_dbt.DbtCliResource_call
           (fun project_dir : string => Py.Return (String.length project_dir))
           scenario_env scenario_defs d2).
  - reflexivity.
  - reflexivity.
Defined.

Lemma Definitions_call_keeps_cardinality_witness :
  (exists d,
     dagster.Definitions_call [asset_A; asset_B] [schedule_S1]
       (dagster.resources scenario_defs) = Py.Return d
     /\ length (dagster.assets d) = 2
     /\ dagster.assets d = [asset_A; asset_B]
     /\ dagster.resources d = dagster.resources scenario_defs)
  /\ (forall env s dbt,
        [dbtlearn_dbt_assets env; dbtlearn_partitioned_dbt_assets env] =
          [asset_A; asset_B] ->
        os.string_form (dbt_project_dir env) = Some s ->
        dagster_dbt.DbtCliResource_call s = Py.Return dbt ->
        exists d,
          defs dagster_dbt.DbtCliResource_call env = Py.Return d
          /\ length (dagster.assets d) = 2).
Proof.
  apply (Definitions_call_keeps_cardinality dagster_dbt.DbtCliResource_call
           [asset_A; asset_B] [schedule_S1] (dagster.resources scenario_defs)).
  - discriminate.
  - simpl. apply pair_NoDup. discriminate.
Defined.

Lemma Definitions_call_name_collision_witness :
  (exists n,
     dagster.Definitions_call [asset_A; asset_A_daily] [schedule_S1]
       (dagster.resources scenario_defs) = Py.Raise (Py.NamingCollision n)
     /\ exists k l, k < l
          /\ (dagster.asset_name <$> [asset_A; asset_A_daily]) !! k = Some n
          /\ (dagster.asset_name <$> [asset_A; asset_A_daily]) !! l = Some n)
  /\ (forall env,
        [dbtlearn_dbt_assets env; dbtlearn_partitioned_dbt_assets env] =
          [asset_A; asset_A_daily] ->
        Py.fails (defs dagster_dbt.DbtCliResource_call env)
        /\ forall s dbt,
             os.string_form (dbt_project_dir env) = Some s ->
             dagster_dbt.DbtCliResource_call s = Py.Return dbt ->
             exists n, defs dagster_dbt.DbtCliResource_call env =
                         Py.Raise (Py.NamingCollision n)).
Proof.
  apply (Definitions_call_name_collision dagster_dbt.DbtCliResource_call
           [asset_A; asset_A_daily] [schedule_S1]
           (dagster.resources scenario_defs) 0 1 asset_A asset_A_daily).
  - lia.
  - reflexivity.
  - reflexivity.
  - reflexivity.
Defined.

(** * Further properties of the assignment *)

Section definitions_py_outcomes.

Context {R : Type}.
Variable DbtCliResource : string -> Py.result R.

Lemma defs_same_names_collision (env : Imports) (s : string) (dbt : R) :
  os.string_form (dbt_project_dir env) = Some s ->
  DbtCliResource s = Py.Return dbt ->
  dagster.asset_name (dbtlearn_dbt_assets env) =
    dagster.asset_name (dbtlearn_partitioned_dbt_assets env) ->
  defs DbtCliResource env =
    Py.Raise (Py.NamingCollision (dagster.asset_name (dbtlearn_dbt_assets env))).
Proof.
  intros Hs Hr Heq. rewrite (defs_resource_built _ env s dbt Hs Hr).
  unfold dagster.Definitions_call. simpl.
  case_decide as Hin; [done |].
  exfalso. apply Hin. rewrite Heq. apply list_elem_of_singleton. done.
Qed.

(** X1: the assignment binds a registration object exactly when the
    project directory is path-like, the resource constructor answers a
    resource on its string form and the two asset definitions carry
    different names; the object is then the one holding both assets in
    the order written, the imported schedules and the single resource
    "dbt". *)
Theorem defs_returns_iff (env : Imports) (d : dagster.Definitions R) :
  defs DbtCliResource env = Py.Return d
  <-> exists s dbt,
        os.string_form (dbt_project_dir env) = Some s
        /\ DbtCliResource s = Py.Return dbt
        /\ dagster.asset_name (dbtlearn_dbt_assets env) <>
             dagster.asset_name (dbtlearn_partitioned_dbt_assets env)
        /\ d = {| dagster.assets :=
                    [dbtlearn_dbt_assets env;
                     dbtlearn_partitioned_dbt_assets env];
                  dagster.schedules := schedules env;
                  dagster.resources := {["dbt" := dbt]} |}.
Proof.
  split.
  - apply defs_Return_inv.
  - intros (s & dbt & Hs & Hr & Hne & ->). by apply (defs_Return_eq _ env s dbt).
Qed.

(** X2: the errors of the assignment come in the order its arguments
    are evaluated.  A project directory that is not path-like raises
    [TypeError]; otherwise an error of the resource constructor is
    raised as it is; both happen whether or not the asset names collide.
    Only once the resource is built do equal names raise the collision
    error, on the name of the first asset. *)
Theorem defs_error_precedence (env : Imports) :
  (os.string_form (dbt_project_dir env) = None ->
   defs DbtCliResource env = Py.Raise Py.TypeError)
  /\ (forall s e,
        os.string_form (dbt_project_dir env) = Some s ->
        DbtCliResource s = Py.Raise e ->
        defs DbtCliResource env = Py.Raise e)
  /\ (forall s dbt,
        os.string_form (dbt_project_dir env) = Some s ->
        DbtCliResource s = Py.Return dbt ->
        dagster.asset_name (dbtlearn_dbt_assets env) =
          dagster.asset_name (dbtlearn_partitioned_dbt_assets env) ->
        defs DbtCliResource env =
          Py.Raise (Py.NamingCollision
                      (dagster.asset_name (dbtlearn_dbt_assets env)))).
Proof.
  split; [|split].
  - apply defs_not_path_like.
  - intros s e. apply defs_constructor_raises.
  - intros s dbt. apply defs_same_names_collision.
Qed.

End definitions_py_outcomes.
